(** * HamamatsuImagEMX2: the qudi camera adapter over the DCAM camera object

    A shallow embedding of
    [src/qudi/hardware/camera/hamamatsu/hamamatsu_imagem_x2.py].

    The adapter is glue code: every method either forwards to the
    [pylablib] camera object held in [self.cam], or reads and writes an
    attribute of the adapter instance.  The camera object and the
    library-wide parameter dictionary [pylablib.par] are the environment.
    The embedding threads the instance attributes and the environment
    through a state-and-exception monad, and keeps a chronological log of
    everything the adapter asks of the environment. *)

From Stdlib Require Import ZArith String List.
From stdpp Require Import base option list strings gmap.

Open Scope string_scope.
Open Scope list_scope.

(** ** Python values *)

(** The values that travel through the adapter, and the exceptions.  The
    adapter never does arithmetic; a float is carried as its IEEE-754
    binary64 bit pattern, a [str] as its UTF-8 encoding.  [VObj] is any
    other object (an image array, say), known by identity; Python asks
    the object itself for its truth value and for its items, so it
    carries what it answers to [bool(o)] and to [iter(o)]: a result, or
    the exception it raises.  [SdkError] stands for whatever the camera
    library raises. *)
#[warnings="-register-all"]
Inductive pyval : Type :=
| VNone
| VBool (b : bool)
| VInt (z : Z)
| VFloat (bits : Z)
| VStr (s : string)
| VTuple (items : list pyval)
| VList (items : list pyval)
| VObj (id : nat) (truth : bool + pyexn) (items : list pyval + pyexn)
with pyexn : Type :=
| AttributeError (obj attr : string)
| TypeError (msg : string)
| SdkError (payload : pyval).

(** The outcome of a call: a value, or a raised exception. *)
Inductive res (A : Type) : Type :=
| Ok (a : A)
| Raise (e : pyexn).
Arguments Ok {A} a.
Arguments Raise {A} e.

(** [v == 'lit'] for a string literal: only a [str] with the same
    characters is equal to it. *)
Definition py_eq_str (v : pyval) (lit : string) : bool :=
  match v with
  | VStr s => String.eqb s lit
  | _ => false
  end.

(** [v != 'lit']. *)
Definition py_ne_str (v : pyval) (lit : string) : bool := negb (py_eq_str v lit).

(** Truth value of [v], as tested by [True if v else False]. *)
Definition py_truthy (v : pyval) : res bool :=
  match v with
  | VNone => Ok false
  | VBool b => Ok b
  | VInt z => Ok (negb (z =? 0)%Z)
  | VFloat bits => Ok (negb (Z.land bits (2 ^ 63 - 1) =? 0)%Z)
  | VStr s => Ok (negb (String.eqb s ""))
  | VTuple items | VList items => Ok (negb (Nat.eqb (length items) 0))
  | VObj _ (inl b) _ => Ok b
  | VObj _ (inr e) _ => Raise e
  end.

(** Bytes [10xxxxxx], which continue a code point in UTF-8. *)
Definition is_continuation (c : Ascii.ascii) : bool :=
  (128 <=? Ascii.nat_of_ascii c)%nat && (Ascii.nat_of_ascii c <? 192)%nat.

Definition starts_with_continuation (s : string) : bool :=
  match s with
  | String c _ => is_continuation c
  | EmptyString => false
  end.

(** The code points of a [str], each as a [str] of its own: a byte
    joins the bytes after it when they continue it, and stands alone
    otherwise. *)
Fixpoint code_points (s : string) : list string :=
  match s with
  | EmptyString => []
  | String c rest =>
      match code_points rest with
      | p :: ps =>
          if starts_with_continuation rest then String c p :: ps
          else String c EmptyString :: p :: ps
      | [] => [String c EmptyString]
      end
  end.

(** [tuple(v)]: the items of an iterable; [TypeError] for the values
    that are not iterable. *)
Definition py_tuple (v : pyval) : res (list pyval) :=
  match v with
  | VTuple items | VList items => Ok items
  | VStr s => Ok (map VStr (code_points s))
  | VObj _ _ (inl items) => Ok items
  | VObj _ _ (inr e) => Raise e
  | VNone | VBool _ | VInt _ | VFloat _ => Raise (TypeError "object is not iterable")
  end.

(** The [str] items of a list, [None] when some item is not a [str]
    (where [str.join] raises [TypeError]). *)
Fixpoint py_strs (items : list pyval) : option (list string) :=
  match items with
  | [] => Some []
  | VStr s :: rest =>
      match py_strs rest with
      | Some ss => Some (s :: ss)
      | None => None
      end
  | _ :: _ => None
  end.

(** ** The camera object *)

(** Identity of an opened [DCAM.DCAMCamera] object. *)
Definition handle : Type := nat.

(** The methods of the camera object that the adapter calls, with their
    arguments as the adapter passes them. *)
Inductive dcam_method : Type :=
| close
| cam_get_name
| get_data_dimensions
| setup_acquisition (mode : string) (nframes : Z)
| start_acquisition (mode : string) (nframes : Z)
| wait_for_frame
| get_status
| cam_stop_acquisition
| acquisition_in_progress
| read_newest_image
| cam_set_exposure (exposure : pyval)
| cam_get_exposure
| cam_set_contrast_gain (value : pyval)
| cam_get_contrast_gain
| cam_set_sensitivity (value : pyval)
| cam_get_sensitivity
| set_roi (hstart hend vstart vend hbin : pyval)
| get_roi
| cam_set_trigger_mode (trigger_mode : pyval)
| cam_get_trigger_mode.

(** Attribute name looked up on the camera object for each method. *)
Definition method_name (m : dcam_method) : string :=
  match m with
  | close => "close"
  | cam_get_name => "get_name"
  | get_data_dimensions => "get_data_dimensions"
  | setup_acquisition _ _ => "setup_acquisition"
  | start_acquisition _ _ => "start_acquisition"
  | wait_for_frame => "wait_for_frame"
  | get_status => "get_status"
  | cam_stop_acquisition => "stop_acquisition"
  | acquisition_in_progress => "acquisition_in_progress"
  | read_newest_image => "read_newest_image"
  | cam_set_exposure _ => "set_exposure"
  | cam_get_exposure => "get_exposure"
  | cam_set_contrast_gain _ => "set_contrast_gain"
  | cam_get_contrast_gain => "get_contrast_gain"
  | cam_set_sensitivity _ => "set_sensitivity"
  | cam_get_sensitivity => "get_sensitivity"
  | set_roi _ _ _ _ _ => "set_roi"
  | get_roi => "get_roi"
  | cam_set_trigger_mode _ => "set_trigger_mode"
  | cam_get_trigger_mode => "get_trigger_mode"
  end.

(** The camera library as the adapter sees it: a device state of some
    type [Dev], the constructor [DCAM.DCAMCamera()] and the method calls
    on an opened camera.  Each may answer with a value or raise, and each
    may change the device state.  Nothing more is assumed of it. *)
Class Sdk (Dev : Type) : Type := {
  DCAMCamera : Dev -> res handle * Dev;
  dcam_call : handle -> dcam_method -> Dev -> res pyval * Dev
}.

(** What the adapter asked of its environment, in the order it asked. *)
Inductive event : Type :=
| EvParSet (key : string) (v : pyval)
| EvParDel (key : string)
| EvNew (r : res handle)
| EvCall (h : handle) (m : dcam_method) (r : res pyval).

(** A call on the camera library, without its answer. *)
Inductive sdk_call : Type :=
| NewCamera
| Method (h : handle) (m : dcam_method).

Definition sdk_call_of (ev : event) : option sdk_call :=
  match ev with
  | EvNew _ => Some NewCamera
  | EvCall h m _ => Some (Method h m)
  | EvParSet _ _ | EvParDel _ => None
  end.

(** The calls on the camera library among the events of a log. *)
Definition sdk_calls (l : list event) : list sdk_call :=
  omap sdk_call_of l.

(** ** The adapter instance *)

(** The attributes of [self].  The seven [ConfigOption]s are filled in
    when the module is loaded and never assigned afterwards.  [_gain] and
    [cam] start from their class-level value [None]; [cam] is [None] for
    Python's [None] and [Some h] for a camera object.  [_bin_value] has no
    class-level value: the attribute does not exist ([None] here) until
    [set_binning_value] assigns it. *)
Record adapter : Type := {
  _dll_location : pyval;
  _default_exposure : pyval;
  _default_gain : pyval;
  _default_acquisition_mode : pyval;
  _default_trigger_mode : pyval;
  _default_ROI : pyval;
  _default_hbin : pyval;
  _gain : pyval;
  cam : option handle;
  _bin_value : option pyval
}.

Definition assign_gain (g : pyval) (a : adapter) : adapter :=
  {| _dll_location := _dll_location a;
     _default_exposure := _default_exposure a;
     _default_gain := _default_gain a;
     _default_acquisition_mode := _default_acquisition_mode a;
     _default_trigger_mode := _default_trigger_mode a;
     _default_ROI := _default_ROI a;
     _default_hbin := _default_hbin a;
     _gain := g;
     cam := cam a;
     _bin_value := _bin_value a |}.

Definition assign_cam (h : handle) (a : adapter) : adapter :=
  {| _dll_location := _dll_location a;
     _default_exposure := _default_exposure a;
     _default_gain := _default_gain a;
     _default_acquisition_mode := _default_acquisition_mode a;
     _default_trigger_mode := _default_trigger_mode a;
     _default_ROI := _default_ROI a;
     _default_hbin := _default_hbin a;
     _gain := _gain a;
     cam := Some h;
     _bin_value := _bin_value a |}.

Definition assign_bin_value (b : pyval) (a : adapter) : adapter :=
  {| _dll_location := _dll_location a;
     _default_exposure := _default_exposure a;
     _default_gain := _default_gain a;
     _default_acquisition_mode := _default_acquisition_mode a;
     _default_trigger_mode := _default_trigger_mode a;
     _default_ROI := _default_ROI a;
     _default_hbin := _default_hbin a;
     _gain := _gain a;
     cam := cam a;
     _bin_value := Some b |}.

(** A newly constructed instance with the given configuration, with the
    defaults the class gives to the optional options. *)
Definition new_adapter (dll_location default_exposure default_gain : pyval) : adapter :=
  {| _dll_location := dll_location;
     _default_exposure := default_exposure;
     _default_gain := default_gain;
     _default_acquisition_mode := VStr "sequence";
     _default_trigger_mode := VStr "int";
     _default_ROI := VTuple [VInt 0; VInt 1; VInt 0; VInt 1];
     _default_hbin := VFloat 4607182418800017408;
     _gain := VNone;
     cam := None;
     _bin_value := None |}.

(** ** The environment *)

(** The device, the dictionary [pylablib.par], and the log. *)
Record world (Dev : Type) : Type := {
  dev : Dev;
  par : gmap string pyval;
  log : list event
}.
Arguments dev {Dev} w.
Arguments par {Dev} w.
Arguments log {Dev} w.

Section Adapter.

Context {Dev : Type} `{!Sdk Dev}.

(** A method body: from the instance and the environment to an outcome
    and the instance and environment it leaves behind.  What was done
    before an exception stays done. *)
Definition M (A : Type) : Type := adapter * world Dev -> res A * (adapter * world Dev).

Definition ret {A} (a : A) : M A := fun s => (Ok a, s).

Definition bind {A B} (m : M A) (k : A -> M B) : M B :=
  fun s =>
    match m s with
    | (Ok a, s') => k a s'
    | (Raise e, s') => (Raise e, s')
    end.

Definition raise {A} (e : pyexn) : M A := fun s => (Raise e, s).

#[local] Notation "x <- m ;; k" := (bind m (fun x => k))
  (at level 100, m at next level, right associativity).
#[local] Notation "m ;;; k" := (bind m (fun _ => k))
  (at level 100, right associativity).

(** Read an attribute of [self]. *)
Definition self_get {A} (f : adapter -> A) : M A := fun s => (Ok (f (fst s)), s).

(** Assign an attribute of [self]. *)
Definition self_set (f : adapter -> adapter) : M unit := fun s => (Ok tt, (f (fst s), snd s)).

(** [pylablib.par[key] = v]. *)
Definition par_set (key : string) (v : pyval) : M unit :=
  fun '(a, w) =>
    (Ok tt, (a, {| dev := dev w; par := <[key := v]> (par w);
                   log := log w ++ [EvParSet key v] |})).

(** [del pylablib.par[key]].  The library's dictionary deletes the entry
    when it is there and does nothing when it is not; it does not raise. *)
Definition par_del (key : string) : M unit :=
  fun '(a, w) =>
    (Ok tt, (a, {| dev := dev w; par := delete key (par w);
                   log := log w ++ [EvParDel key] |})).

(** [DCAM.DCAMCamera()]. *)
Definition new_camera : M handle :=
  fun '(a, w) =>
    match DCAMCamera (dev w) with
    | (r, d) => (r, (a, {| dev := d; par := par w; log := log w ++ [EvNew r] |}))
    end.

(** [self.cam.m(...)]: on [None] the attribute lookup raises; on a camera
    object the library answers. *)
Definition cam_call (m : dcam_method) : M pyval :=
  fun '(a, w) =>
    match cam a with
    | None => (Raise (AttributeError "NoneType" (method_name m)), (a, w))
    | Some h =>
        match dcam_call h m (dev w) with
        | (r, d) => (r, (a, {| dev := d; par := par w; log := log w ++ [EvCall h m r] |}))
        end
    end.

(** *** The methods of [HamamatsuImagEMX2] *)

Definition set_gain (gain : pyval) : M pyval :=
  self_set (assign_gain gain) ;;;
  ret VNone.

Definition get_gain : M pyval :=
  self_get _gain.

Definition on_activate : M pyval :=
  dll <- self_get _dll_location ;;
  par_set "devices/dlls/dcamapi" dll ;;;
  h <- new_camera ;;
  self_set (assign_cam h) ;;;
  e <- self_get _default_exposure ;;
  cam_call (cam_set_exposure e) ;;;
  g <- self_get _default_gain ;;
  set_gain g ;;;
  ret VNone.

Definition on_deactivate : M pyval :=
  cam_call close ;;;
  par_del "devices/dlls/dcamapi" ;;;
  ret VNone.

Definition get_name : M pyval :=
  n <- cam_call cam_get_name ;;
  match py_tuple n with
  | Raise e => raise e
  | Ok items =>
      match py_strs items with
      | None => raise (TypeError "sequence item: expected str instance")
      | Some ss => ret (VStr (String.concat " " ss))
      end
  end.

Definition get_size : M pyval :=
  cam_call get_data_dimensions.

Definition support_live_acquisition : M pyval :=
  ret (VBool true).

Definition set_trigger_mode (trigger_mode : pyval) : M pyval :=
  cam_call (cam_set_trigger_mode trigger_mode) ;;;
  ret VNone.

Definition get_trigger_mode : M pyval :=
  cam_call cam_get_trigger_mode.

Definition start_single_acquisition : M pyval :=
  tm <- get_trigger_mode ;;
  (if py_ne_str tm "int" then set_trigger_mode (VStr "int") else ret VNone) ;;;
  cam_call (setup_acquisition "snap" 1) ;;;
  cam_call (start_acquisition "snap" 1) ;;;
  cam_call wait_for_frame ;;;
  st <- cam_call get_status ;;
  let no_error := if py_ne_str st "error" then true else false in
  ret (VBool no_error).

Definition start_live_acquisition : M pyval :=
  tm <- get_trigger_mode ;;
  (if py_ne_str tm "int" then set_trigger_mode (VStr "int") else ret VNone) ;;;
  cam_call (setup_acquisition "sequence" 100) ;;;
  cam_call (start_acquisition "sequence" 100) ;;;
  st <- cam_call get_status ;;
  let no_error := if py_ne_str st "error" then true else false in
  ret (VBool no_error).

Definition stop_acquisition : M pyval :=
  cam_call cam_stop_acquisition ;;;
  p <- cam_call acquisition_in_progress ;;
  match py_truthy p with
  | Raise e => raise e
  | Ok t =>
      let is_acquiring := if t then true else false in
      ret (VBool (negb is_acquiring))
  end.

Definition get_acquired_data : M pyval :=
  cam_call read_newest_image.

Definition set_exposure (exposure : pyval) : M pyval :=
  cam_call (cam_set_exposure exposure) ;;;
  ret VNone.

Definition get_exposure : M pyval :=
  cam_call cam_get_exposure.

Definition set_contrast_gain (value : pyval) : M pyval :=
  cam_call (cam_set_contrast_gain value) ;;;
  ret VNone.

Definition get_contrast_gain : M pyval :=
  cam_call cam_get_contrast_gain.

Definition set_sensitivity (value : pyval) : M pyval :=
  cam_call (cam_set_sensitivity value) ;;;
  ret VNone.

Definition get_sensitivity : M pyval :=
  cam_call cam_get_sensitivity.

Definition get_ready_state : M pyval :=
  st <- cam_call get_status ;;
  ret (VBool (if py_eq_str st "ready" then true else false)).

Definition set_region_of_interest (hstart hend vstart vend hbin : pyval) : M pyval :=
  cam_call (set_roi hstart hend vstart vend hbin) ;;;
  ret VNone.

Definition get_ROI : M pyval :=
  cam_call get_roi.

Definition set_binning_value (bin_value : pyval) : M pyval :=
  self_set (assign_bin_value bin_value) ;;;
  ret VNone.

Definition get_binning_value : M pyval :=
  b <- self_get _bin_value ;;
  match b with
  | Some v => ret v
  | None => raise (AttributeError "HamamatsuImagEMX2" "_bin_value")
  end.

Definition _get_status : M pyval :=
  cam_call get_status.

(** *** The hosting framework *)

(** A request of the framework: one public method with its arguments. *)
Inductive op : Type :=
| OnActivate
| OnDeactivate
| GetName
| GetSize
| SupportLiveAcquisition
| StartSingleAcquisition
| StartLiveAcquisition
| StopAcquisition
| GetAcquiredData
| SetExposure (exposure : pyval)
| GetExposure
| SetGain (gain : pyval)
| GetGain
| SetContrastGain (value : pyval)
| GetContrastGain
| SetSensitivity (value : pyval)
| GetSensitivity
| GetReadyState
| SetRegionOfInterest (hstart hend vstart vend hbin : pyval)
| GetROI
| SetTriggerMode (trigger_mode : pyval)
| GetTriggerMode
| SetBinningValue (bin_value : pyval)
| GetBinningValue
| GetStatus.

Definition run_op (o : op) : M pyval :=
  match o with
  | OnActivate => on_activate
  | OnDeactivate => on_deactivate
  | GetName => get_name
  | GetSize => get_size
  | SupportLiveAcquisition => support_live_acquisition
  | StartSingleAcquisition => start_single_acquisition
  | StartLiveAcquisition => start_live_acquisition
  | StopAcquisition => stop_acquisition
  | GetAcquiredData => get_acquired_data
  | SetExposure exposure => set_exposure exposure
  | GetExposure => get_exposure
  | SetGain gain => set_gain gain
  | GetGain => get_gain
  | SetContrastGain value => set_contrast_gain value
  | GetContrastGain => get_contrast_gain
  | SetSensitivity value => set_sensitivity value
  | GetSensitivity => get_sensitivity
  | GetReadyState => get_ready_state
  | SetRegionOfInterest hstart hend vstart vend hbin =>
      set_region_of_interest hstart hend vstart vend hbin
  | GetROI => get_ROI
  | SetTriggerMode trigger_mode => set_trigger_mode trigger_mode
  | GetTriggerMode => get_trigger_mode
  | SetBinningValue bin_value => set_binning_value bin_value
  | GetBinningValue => get_binning_value
  | GetStatus => _get_status
  end.

(** The framework serialises its requests.  A request that raises does
    not end the session: the next request finds the instance and the
    environment as the failed one left them.  The outcomes are returned
    in the order of the requests. *)
Fixpoint run_ops (ops : list op) (s : adapter * world Dev)
  : list (res pyval) * (adapter * world Dev) :=
  match ops with
  | [] => ([], s)
  | o :: rest =>
      match run_op o s with
      | (r, s') =>
          match run_ops rest s' with
          | (rs, s'') => (r :: rs, s'')
          end
      end
  end.

(** The value a request assigns to [self._gain], when it assigns one:
    [set_gain] assigns its argument, and [on_activate] ends with
    [self.set_gain(self._default_gain)], which it reaches exactly when it
    returns. *)
Definition gain_assigned (default_gain : pyval) (o : op) (r : res pyval) : option pyval :=
  match o, r with
  | SetGain gain, _ => Some gain
  | OnActivate, Ok _ => Some default_gain
  | _, _ => None
  end.

(** The argument of the most recent [set_gain] call in a session that
    started with [self._gain = g0]. *)
Fixpoint last_set_gain (default_gain g0 : pyval) (ops : list op) (rs : list (res pyval)) : pyval :=
  match ops, rs with
  | o :: ops', r :: rs' =>
      last_set_gain default_gain (default g0 (gain_assigned default_gain o r)) ops' rs'
  | _, _ => g0
  end.

(** Requests that call [set_gain], directly or from [on_activate]. *)
Definition calls_set_gain (o : op) : bool :=
  match o with
  | SetGain _ | OnActivate => true
  | _ => false
  end.

Definition is_set_binning_value (o : op) : bool :=
  match o with
  | SetBinningValue _ => true
  | _ => false
  end.

End Adapter.

Arguments M Dev A : clear implicits.

(** ** Reading requests and logs *)

(** The method a request looks up first on [self.cam], for the requests
    whose body begins with such a lookup. *)
Definition first_method (o : op) : option dcam_method :=
  match o with
  | OnActivate | SupportLiveAcquisition | SetGain _ | GetGain
  | SetBinningValue _ | GetBinningValue => None
  | OnDeactivate => Some close
  | GetName => Some cam_get_name
  | GetSize => Some get_data_dimensions
  | StartSingleAcquisition | StartLiveAcquisition | GetTriggerMode =>
      Some cam_get_trigger_mode
  | StopAcquisition => Some cam_stop_acquisition
  | GetAcquiredData => Some read_newest_image
  | SetExposure exposure => Some (cam_set_exposure exposure)
  | GetExposure => Some cam_get_exposure
  | SetContrastGain value => Some (cam_set_contrast_gain value)
  | GetContrastGain => Some cam_get_contrast_gain
  | SetSensitivity value => Some (cam_set_sensitivity value)
  | GetSensitivity => Some cam_get_sensitivity
  | GetReadyState | GetStatus => Some get_status
  | SetRegionOfInterest hstart hend vstart vend hbin =>
      Some (set_roi hstart hend vstart vend hbin)
  | GetROI => Some get_roi
  | SetTriggerMode trigger_mode => Some (cam_set_trigger_mode trigger_mode)
  end.

(** The requests whose body is a single call on [self.cam]: the method
    called, and whether the body has a [return] in front of the call (the
    getters) or not (the setters). *)
Definition forwarded (o : op) : option (dcam_method * bool) :=
  match o with
  | GetSize => Some (get_data_dimensions, true)
  | GetAcquiredData => Some (read_newest_image, true)
  | GetExposure => Some (cam_get_exposure, true)
  | GetContrastGain => Some (cam_get_contrast_gain, true)
  | GetSensitivity => Some (cam_get_sensitivity, true)
  | GetROI => Some (get_roi, true)
  | GetTriggerMode => Some (cam_get_trigger_mode, true)
  | GetStatus => Some (get_status, true)
  | SetExposure exposure => Some (cam_set_exposure exposure, false)
  | SetContrastGain value => Some (cam_set_contrast_gain value, false)
  | SetSensitivity value => Some (cam_set_sensitivity value, false)
  | SetRegionOfInterest hstart hend vstart vend hbin =>
      Some (set_roi hstart hend vstart vend hbin, false)
  | SetTriggerMode trigger_mode => Some (cam_set_trigger_mode trigger_mode, false)
  | _ => None
  end.

Definition is_on_activate (o : op) : bool :=
  match o with OnActivate => true | _ => false end.

Definition is_on_deactivate (o : op) : bool :=
  match o with OnDeactivate => true | _ => false end.

(** The requests whose body assigns an attribute of [self]. *)
Definition assigns_self (o : op) : bool :=
  match o with
  | OnActivate | SetGain _ | SetBinningValue _ => true
  | _ => false
  end.

(** The exception a call on the library answered with, when it raised. *)
Definition answer_raised (ev : event) : option pyexn :=
  match ev with
  | EvNew (Raise e) | EvCall _ _ (Raise e) => Some e
  | _ => None
  end.

(** The cameras the constructor has returned, oldest first. *)
Definition opened_cameras (l : list event) : list handle :=
  omap (fun ev => match ev with EvNew (Ok h) => Some h | _ => None end) l.

(** The cameras on which [close] was called, oldest first. *)
Definition close_calls (l : list event) : list handle :=
  omap (fun ev => match ev with EvCall h close _ => Some h | _ => None end) l.

(** What the instance and the log of a session keep: [self.cam] is the
    camera opened last, and only opened cameras were closed. *)
Definition tracks_last_opened {Dev} (s : adapter * world Dev) : Prop :=
  cam (fst s) = last (opened_cameras (log (snd s))) /\
  forall h, h ∈ close_calls (log (snd s)) -> h ∈ opened_cameras (log (snd s)).

(** The seven configuration options of an instance. *)
Definition config (a : adapter) : list pyval :=
  [_dll_location a; _default_exposure a; _default_gain a;
   _default_acquisition_mode a; _default_trigger_mode a;
   _default_ROI a; _default_hbin a].

(** An instance with other values for the four options that no method
    body reads. *)
Definition with_unread_options (mode trig roi hbin : pyval) (a : adapter) : adapter :=
  {| _dll_location := _dll_location a;
     _default_exposure := _default_exposure a;
     _default_gain := _default_gain a;
     _default_acquisition_mode := mode;
     _default_trigger_mode := trig;
     _default_ROI := roi;
     _default_hbin := hbin;
     _gain := _gain a;
     cam := cam a;
     _bin_value := _bin_value a |}.

(** ** A scripted camera library *)

(** A stand-in for the camera library that plays back a script: each
    method call is answered by the next scripted answer ([None] once the
    script is used up), and the constructor hands out consecutive handles
    unless it is scripted to raise. *)
Record script : Type := {
  answers : list (res pyval);
  next_handle : handle;
  open_error : option pyexn
}.

#[export] Instance script_sdk : Sdk script := {|
  DCAMCamera d :=
    match open_error d with
    | Some e => (Raise e, d)
    | None =>
        (Ok (next_handle d),
         {| answers := answers d; next_handle := S (next_handle d);
            open_error := open_error d |})
    end;
  dcam_call _ _ d :=
    match answers d with
    | [] => (Ok VNone, d)
    | r :: rest =>
        (r, {| answers := rest; next_handle := next_handle d;
               open_error := open_error d |})
    end
|}.

(** The environment of a fresh process: nothing registered in
    [pylablib.par], nothing logged. *)
Definition fresh_world {Dev} (d : Dev) : world Dev :=
  {| dev := d; par := ∅; log := [] |}.

(** The configuration of the example in the class docstring. *)
Definition example_adapter : adapter :=
  new_adapter (VStr "C:\Adyant\dlls") (VFloat 4607182418800017408) (VFloat 4607182418800017408).

Definition example_script (rs : list (res pyval)) : script :=
  {| answers := rs; next_handle := 0; open_error := None |}.

(** A fresh process in which the library will play back [rs]. *)
Definition scripted_world (rs : list (res pyval)) : world script :=
  fresh_world (example_script rs).

(** The example instance holding camera [0]. *)
Definition opened_adapter : adapter := assign_cam 0 example_adapter.

(** * Properties *)

Section Properties.

Context {Dev : Type} `{!Sdk Dev}.

Implicit Types (a : adapter) (w : world Dev) (s : adapter * world Dev).
Implicit Types (h : handle) (m : dcam_method) (v g : pyval).

(** ** How a forwarded call runs *)

Lemma cam_call_some a w h m :
  cam a = Some h ->
  cam_call m (a, w) =
    (fst (dcam_call h m (dev w)),
     (a, {| dev := snd (dcam_call h m (dev w)); par := par w;
            log := log w ++ [EvCall h m (fst (dcam_call h m (dev w)))] |})).
Proof.
  intros Hc. unfold cam_call. rewrite Hc.
  destruct (dcam_call h m (dev w)) as [r d]. reflexivity.
Qed.

(** Unfold a method body down to the calls on the environment and split
    on every answer. *)
Ltac unfold_methods :=
  unfold run_op, on_activate, on_deactivate, get_name, get_size,
    support_live_acquisition, start_single_acquisition,
    start_live_acquisition, stop_acquisition, get_acquired_data,
    set_exposure, get_exposure, set_gain, get_gain, set_contrast_gain,
    get_contrast_gain, set_sensitivity, get_sensitivity, get_ready_state,
    set_region_of_interest, get_ROI, set_trigger_mode, get_trigger_mode,
    set_binning_value, get_binning_value, _get_status,
    bind, ret, raise, self_get, self_set, par_set, par_del, new_camera,
    cam_call in *.

Ltac split_answers :=
  repeat (simpl in *; try case_match; simplify_eq).

(** What one request does to the instance: the configuration stays, and
    [_gain] changes exactly as [gain_assigned] says. *)
Lemma run_op_gain o s :
  _default_gain (fst (snd (run_op o s))) = _default_gain (fst s) /\
  _gain (fst (snd (run_op o s))) =
    default (_gain (fst s))
      (gain_assigned (_default_gain (fst s)) o (fst (run_op o s))).
Proof.
  destruct s as [a w]. destruct o; unfold_methods; split_answers; auto.
Qed.

Lemma run_ops_gain ops : forall s,
  _gain (fst (snd (run_ops ops s))) =
    last_set_gain (_default_gain (fst s)) (_gain (fst s)) ops (fst (run_ops ops s)).
Proof.
  induction ops as [|o ops IH]; intros s; [reflexivity|].
  cbn [run_ops]. pose proof (run_op_gain o s) as [Hd Hg].
  destruct (run_op o s) as [r s1]. specialize (IH s1).
  destruct (run_ops ops s1) as [rs s2]. cbn [fst snd last_set_gain] in *.
  rewrite IH, Hd, Hg. reflexivity.
Qed.

(** Requests that do not call [set_gain] leave the last value in place. *)
Lemma last_set_gain_frame dg ops : forall g0 rs,
  forallb (fun o => negb (calls_set_gain o)) ops = true ->
  last_set_gain dg g0 ops rs = g0.
Proof.
  induction ops as [|o ops IH]; intros g0 rs Hf; [reflexivity|].
  cbn [forallb] in Hf. apply andb_prop in Hf as [Ho Hf].
  destruct rs as [|r rs]; [reflexivity|]. cbn [last_set_gain].
  rewrite IH by assumption.
  destruct o; try discriminate Ho; reflexivity.
Qed.

(** ** C1: the gain is a local cache *)

(** C1.  [get_gain] asks nothing of the environment and returns the
    cached [_gain]; after any session of requests it returns the argument
    of the most recent [set_gain] call (that of [on_activate] included);
    and after [set_gain(g)] followed by any requests that do not call
    [set_gain], whatever the camera library answered to them, it
    returns [g]. *)
Theorem get_gain_returns_last_set_gain :
  (forall s, get_gain s = (Ok (_gain (fst s)), s)) /\
  (forall ops s,
     fst (get_gain (snd (run_ops ops s))) =
       Ok (last_set_gain (_default_gain (fst s)) (_gain (fst s)) ops
             (fst (run_ops ops s)))) /\
  (forall g ops s,
     forallb (fun o => negb (calls_set_gain o)) ops = true ->
     fst (get_gain (snd (run_ops (SetGain g :: ops) s))) = Ok g).
Proof.
  split; [reflexivity|]. split.
  - intros ops s. unfold get_gain, self_get. cbn [fst].
    rewrite run_ops_gain. reflexivity.
  - intros g ops s Hf. unfold get_gain, self_get. cbn [fst].
    rewrite run_ops_gain. cbn [run_ops].
    destruct s as [a w]. unfold_methods. cbn [fst snd].
    destruct (run_ops ops _) as [rs s2]. cbn [fst last_set_gain gain_assigned default].
    rewrite last_set_gain_frame by assumption. reflexivity.
Qed.

(** ** C2: the camera handle across activation and deactivation *)

(** No request puts [None] back into [self.cam]. *)
Lemma run_op_cam o s :
  cam (fst s) <> None -> cam (fst (snd (run_op o s))) <> None.
Proof.
  destruct s as [a w]. intros Hc.
  destruct o; unfold_methods; split_answers; congruence.
Qed.

(** C2, as the code has it.  When [on_activate] returns, [self.cam] holds
    the camera object that [DCAM.DCAMCamera()] has just returned.
    [on_deactivate] closes that object but does not assign [self.cam]:
    the attribute is the same before and after, whatever the outcome.
    So once a camera has been opened, [self.cam] stays non-null through
    every later request, deactivation included. *)
Theorem cam_set_by_activate_kept_by_deactivate :
  (forall s v s',
     on_activate s = (Ok v, s') ->
     exists h, fst (DCAMCamera (dev (snd s))) = Ok h /\ cam (fst s') = Some h) /\
  (forall s, cam (fst (snd (on_deactivate s))) = cam (fst s)) /\
  (forall ops s,
     cam (fst s) <> None -> cam (fst (snd (run_ops ops s))) <> None).
Proof.
  split; [|split].
  - intros [a w] v s' Hrun. unfold_methods. split_answers. eauto.
  - intros [a w]. unfold_methods. split_answers; congruence.
  - induction ops as [|o ops IH]; intros s Hc; [exact Hc|].
    cbn [run_ops]. pose proof (run_op_cam o s Hc) as Hc1.
    destruct (run_op o s) as [r s1]. specialize (IH s1 Hc1).
    destruct (run_ops ops s1) as [rs s2]. exact IH.
Qed.

(** ** C9: the two local setters *)

(** C9.  [set_gain] and [set_binning_value] return [None] and leave the
    environment (device state, [pylablib.par], log of calls) exactly as it
    was: no call is issued.  On the instance each assigns its own
    attribute and nothing else. *)
Theorem local_setters_leave_sdk_alone :
  (forall g a w,
     set_gain g (a, w) = (Ok VNone, (assign_gain g a, w)) /\
     cam (assign_gain g a) = cam a /\
     _bin_value (assign_gain g a) = _bin_value a /\
     _gain (assign_gain g a) = g) /\
  (forall b a w,
     set_binning_value b (a, w) = (Ok VNone, (assign_bin_value b a, w)) /\
     cam (assign_bin_value b a) = cam a /\
     _gain (assign_bin_value b a) = _gain a /\
     _bin_value (assign_bin_value b a) = Some b).
Proof. split; intros; repeat split; reflexivity. Qed.

(** ** C10: reading the caches before they are written *)

Lemma run_op_bin_value o s :
  is_set_binning_value o = false ->
  _bin_value (fst (snd (run_op o s))) = _bin_value (fst s).
Proof.
  destruct s as [a w]. intros Ho.
  destruct o; try discriminate Ho; unfold_methods; split_answers; congruence.
Qed.

Lemma run_ops_bin_value ops : forall s,
  forallb (fun o => negb (is_set_binning_value o)) ops = true ->
  _bin_value (fst (snd (run_ops ops s))) = _bin_value (fst s).
Proof.
  induction ops as [|o ops IH]; intros s Hf; [reflexivity|].
  cbn [forallb] in Hf. apply andb_prop in Hf as [Ho Hf].
  apply negb_true_iff in Ho.
  cbn [run_ops]. pose proof (run_op_bin_value o s Ho) as H1.
  destruct (run_op o s) as [r s1]. specialize (IH s1 Hf).
  destruct (run_ops ops s1) as [rs s2]. cbn [fst snd] in *. congruence.
Qed.

(** C10.  On a new instance [get_binning_value] raises [AttributeError];
    it still does after any requests other than [set_binning_value],
    [on_activate] among them.  [get_gain] on a new instance returns
    [None]. *)
Theorem get_binning_value_unset_raises :
  (forall dll e g w,
     get_binning_value (new_adapter dll e g, w) =
       (Raise (AttributeError "HamamatsuImagEMX2" "_bin_value"),
        (new_adapter dll e g, w))) /\
  (forall dll e g w ops,
     forallb (fun o => negb (is_set_binning_value o)) ops = true ->
     fst (get_binning_value (snd (run_ops ops (new_adapter dll e g, w)))) =
       Raise (AttributeError "HamamatsuImagEMX2" "_bin_value")) /\
  (forall dll e g w,
     get_gain (new_adapter dll e g, w) = (Ok VNone, (new_adapter dll e g, w))).
Proof.
  split; [reflexivity|]. split; [|reflexivity].
  intros dll e g w ops Hf.
  pose proof (run_ops_bin_value ops (new_adapter dll e g, w) Hf) as Hb.
  destruct (run_ops ops _) as [rs [a' w']]. cbn [fst snd] in *.
  unfold get_binning_value, bind, self_get. cbn [fst snd].
  rewrite Hb. reflexivity.
Qed.

(** ** C6: the ready state *)

Lemma py_eq_str_spec v lit : py_eq_str v lit = true <-> v = VStr lit.
Proof.
  destruct v; cbn; try (split; [discriminate|intros; discriminate]).
  rewrite String.eqb_eq. split; [intros ->|intros [= ->]]; reflexivity.
Qed.

(** C6.  With a camera open, [get_ready_state] asks the library for the
    status once; when that call answers [st], the method returns [True]
    if [st] is the string ['ready'] and [False] for every other answer,
    ['acquiring'] and ['error'] among them. *)
Theorem get_ready_state_iff_ready a w h st d :
  cam a = Some h ->
  dcam_call h get_status (dev w) = (Ok st, d) ->
  get_ready_state (a, w) =
    (Ok (VBool (py_eq_str st "ready")),
     (a, {| dev := d; par := par w;
            log := log w ++ [EvCall h get_status (Ok st)] |})) /\
  (py_eq_str st "ready" = true <-> st = VStr "ready") /\
  py_eq_str (VStr "acquiring") "ready" = false /\
  py_eq_str (VStr "error") "ready" = false.
Proof.
  intros Hc Hst. split; [|split; [apply py_eq_str_spec|split; reflexivity]].
  unfold get_ready_state, bind, ret. rewrite (cam_call_some _ _ _ _ Hc), Hst.
  cbn [fst snd]. destruct (py_eq_str st "ready"); reflexivity.
Qed.

(** ** C5: stopping *)

(** C5.  With a camera open, [stop_acquisition] issues the stop request
    and then asks whether an acquisition is in progress, in that order and
    nothing else.  When both calls answer and the second answer is the
    boolean [b], it returns [not b]: [True] when the library reports that
    no acquisition is in progress, [False] when it reports that one still
    is.  For an answer that is not a boolean its truth value stands in for
    [b] ([None], zero and empty sequences count as not in progress), and
    an answer that has no truth value makes the method raise after the
    two calls. *)
Theorem stop_acquisition_iff_not_in_progress a w h r d1 p d2 :
  cam a = Some h ->
  dcam_call h cam_stop_acquisition (dev w) = (Ok r, d1) ->
  dcam_call h acquisition_in_progress d1 = (Ok p, d2) ->
  let s' :=
    (a, {| dev := d2; par := par w;
           log := log w ++ [EvCall h cam_stop_acquisition (Ok r);
                            EvCall h acquisition_in_progress (Ok p)] |}) in
  (p = VBool true -> stop_acquisition (a, w) = (Ok (VBool false), s')) /\
  (p = VBool false -> stop_acquisition (a, w) = (Ok (VBool true), s')) /\
  (forall v, stop_acquisition (a, w) = (Ok v, s') ->
     (v = VBool true <-> py_truthy p = Ok false) /\
     (v = VBool false <-> py_truthy p = Ok true)) /\
  (forall e, py_truthy p = Raise e -> stop_acquisition (a, w) = (Raise e, s')) /\
  (p = VNone \/ p = VInt 0 \/ p = VList [] \/ p = VTuple [] ->
     stop_acquisition (a, w) = (Ok (VBool true), s')) /\
  (forall z, p = VInt z -> z <> 0%Z ->
     stop_acquisition (a, w) = (Ok (VBool false), s')).
Proof.
  intros Hc Hs Hp s'. subst s'.
  assert (Hrun : stop_acquisition (a, w) =
            (match py_truthy p with
             | Ok t => Ok (VBool (negb t))
             | Raise e => Raise e
             end,
             (a, {| dev := d2; par := par w;
                    log := log w ++ [EvCall h cam_stop_acquisition (Ok r);
                                     EvCall h acquisition_in_progress (Ok p)] |}))).
  { unfold stop_acquisition, bind, ret, raise.
    rewrite (cam_call_some _ _ _ _ Hc), Hs. cbn [fst snd].
    rewrite (cam_call_some _ _ _ _ Hc). cbn [dev par log]. rewrite Hp.
    cbn [fst snd]. rewrite <- app_assoc.
    destruct (py_truthy p) as [[|]|e]; reflexivity. }
  rewrite Hrun.
  split; [intros ->; reflexivity|].
  split; [intros ->; reflexivity|].
  split; [|split; [|split]].
  - intros v Hv. destruct (py_truthy p) as [[|]|e]; simplify_eq;
      split; split; congruence.
  - intros e ->. reflexivity.
  - intros [->|[->|[->| ->]]]; reflexivity.
  - intros z -> Hz. cbn [py_truthy].
    destruct (Z.eqb_spec z 0) as [->|_]; [contradiction|reflexivity].
Qed.

(** ** C3, C4: starting an acquisition *)

Lemma sdk_calls_snoc l ev : sdk_calls (l ++ [ev]) = sdk_calls l ++ sdk_calls [ev].
Proof. unfold sdk_calls. apply omap_app. Qed.

Ltac read_log :=
  cbn [fst snd log dev par];
  rewrite ?sdk_calls_snoc, ?last_snoc; cbn [sdk_calls omap sdk_call_of];
  rewrite <- ?app_assoc; cbn [app].

Lemma start_single_acquisition_run a w h v s' :
  cam a = Some h ->
  start_single_acquisition (a, w) = (Ok v, s') ->
  exists tm st,
    fst (dcam_call h cam_get_trigger_mode (dev w)) = Ok tm /\
    sdk_calls (log (snd s')) =
      sdk_calls (log w) ++
      Method h cam_get_trigger_mode ::
      (if py_ne_str tm "int"
       then [Method h (cam_set_trigger_mode (VStr "int"))] else []) ++
      [Method h (setup_acquisition "snap" 1);
       Method h (start_acquisition "snap" 1);
       Method h wait_for_frame;
       Method h get_status] /\
    last (log (snd s')) = Some (EvCall h get_status (Ok st)) /\
    v = VBool (py_ne_str st "error").
Proof.
  intros Hc Hrun. unfold_methods. rewrite Hc in Hrun.
  destruct (dcam_call h cam_get_trigger_mode (dev w)) as [[tm|e] d1] eqn:E1;
    [|discriminate].
  exists tm.
  destruct (py_ne_str tm "int") eqn:Etm; split_answers;
    eexists; (split; [reflexivity|]); read_log;
    repeat split; try reflexivity; congruence.
Qed.

Lemma start_live_acquisition_run a w h v s' :
  cam a = Some h ->
  start_live_acquisition (a, w) = (Ok v, s') ->
  exists tm st,
    fst (dcam_call h cam_get_trigger_mode (dev w)) = Ok tm /\
    sdk_calls (log (snd s')) =
      sdk_calls (log w) ++
      Method h cam_get_trigger_mode ::
      (if py_ne_str tm "int"
       then [Method h (cam_set_trigger_mode (VStr "int"))] else []) ++
      [Method h (setup_acquisition "sequence" 100);
       Method h (start_acquisition "sequence" 100);
       Method h get_status] /\
    last (log (snd s')) = Some (EvCall h get_status (Ok st)) /\
    v = VBool (py_ne_str st "error").
Proof.
  intros Hc Hrun. unfold_methods. rewrite Hc in Hrun.
  destruct (dcam_call h cam_get_trigger_mode (dev w)) as [[tm|e] d1] eqn:E1;
    [|discriminate].
  exists tm.
  destruct (py_ne_str tm "int") eqn:Etm; split_answers;
    eexists; (split; [reflexivity|]); read_log;
    repeat split; try reflexivity; congruence.
Qed.

(** C3.  With a camera open, whenever [start_single_acquisition]
    returns: if the trigger mode it read was not ['int'], its calls on the
    library were the read, then [set_trigger_mode('int')], then
    [setup_acquisition], [start_acquisition], [wait_for_frame] and the
    status query, in that order; if the trigger mode was already ['int'],
    the same without any [set_trigger_mode] call. *)
Theorem start_single_acquisition_call_order a w h v s' :
  cam a = Some h ->
  start_single_acquisition (a, w) = (Ok v, s') ->
  exists tm,
    fst (dcam_call h cam_get_trigger_mode (dev w)) = Ok tm /\
    (tm <> VStr "int" ->
       sdk_calls (log (snd s')) =
         sdk_calls (log w) ++
         [Method h cam_get_trigger_mode;
          Method h (cam_set_trigger_mode (VStr "int"));
          Method h (setup_acquisition "snap" 1);
          Method h (start_acquisition "snap" 1);
          Method h wait_for_frame;
          Method h get_status]) /\
    (tm = VStr "int" ->
       sdk_calls (log (snd s')) =
         sdk_calls (log w) ++
         [Method h cam_get_trigger_mode;
          Method h (setup_acquisition "snap" 1);
          Method h (start_acquisition "snap" 1);
          Method h wait_for_frame;
          Method h get_status]).
Proof.
  intros Hc Hrun.
  destruct (start_single_acquisition_run a w h v s' Hc Hrun)
    as (tm & st & Htm & Hcalls & _ & _).
  exists tm. split; [exact Htm|]. rewrite Hcalls. unfold py_ne_str.
  split; intros Hm.
  - destruct (py_eq_str tm "int") eqn:E; [|reflexivity].
    apply py_eq_str_spec in E. contradiction.
  - subst tm. reflexivity.
Qed.

(** Run the calls whose answers are among the hypotheses. *)
Ltac answer_calls Hc :=
  repeat (cbn [fst snd dev par log];
          first [ rewrite Hc
                | match goal with
                  | H : dcam_call _ _ _ = _ |- _ => rewrite H
                  end ]).

(** C4.  With a camera open and the library answering every call,
    [start_single_acquisition] and [start_live_acquisition] return a
    boolean: [False] if the status queried after the acquisition was
    started is ['error'], [True] for any other status.  The calls are the
    trigger mode read, [set_trigger_mode('int')] when the mode read is
    not ['int'], then for the single acquisition ['snap'] with one frame
    set up, started and waited for, and for the live acquisition
    ['sequence'] with 100 frames set up and started, and last the status
    query.  The instance is untouched. *)
Theorem start_acquisition_false_iff_error a w h tm d1 r1 d2 :
  cam a = Some h ->
  dcam_call h cam_get_trigger_mode (dev w) = (Ok tm, d1) ->
  (if py_ne_str tm "int"
   then dcam_call h (cam_set_trigger_mode (VStr "int")) d1 = (Ok r1, d2)
   else d2 = d1) ->
  let set_int :=
    if py_ne_str tm "int"
    then [EvCall h (cam_set_trigger_mode (VStr "int")) (Ok r1)] else [] in
  (forall r2 d3 r3 d4 r4 d5 st d6,
     dcam_call h (setup_acquisition "snap" 1) d2 = (Ok r2, d3) ->
     dcam_call h (start_acquisition "snap" 1) d3 = (Ok r3, d4) ->
     dcam_call h wait_for_frame d4 = (Ok r4, d5) ->
     dcam_call h get_status d5 = (Ok st, d6) ->
     start_single_acquisition (a, w) =
       (Ok (VBool (py_ne_str st "error")),
        (a, {| dev := d6; par := par w;
               log := log w ++
                      EvCall h cam_get_trigger_mode (Ok tm) :: set_int ++
                      [EvCall h (setup_acquisition "snap" 1) (Ok r2);
                       EvCall h (start_acquisition "snap" 1) (Ok r3);
                       EvCall h wait_for_frame (Ok r4);
                       EvCall h get_status (Ok st)] |}))) /\
  (forall r2 d3 r3 d4 st d5,
     dcam_call h (setup_acquisition "sequence" 100) d2 = (Ok r2, d3) ->
     dcam_call h (start_acquisition "sequence" 100) d3 = (Ok r3, d4) ->
     dcam_call h get_status d4 = (Ok st, d5) ->
     start_live_acquisition (a, w) =
       (Ok (VBool (py_ne_str st "error")),
        (a, {| dev := d5; par := par w;
               log := log w ++
                      EvCall h cam_get_trigger_mode (Ok tm) :: set_int ++
                      [EvCall h (setup_acquisition "sequence" 100) (Ok r2);
                       EvCall h (start_acquisition "sequence" 100) (Ok r3);
                       EvCall h get_status (Ok st)] |}))) /\
  (forall st : pyval,
     (py_ne_str st "error" = false <-> st = VStr "error") /\
     (py_ne_str st "error" = true <-> st <> VStr "error")).
Proof.
  intros Hc Htm Hset set_int. subst set_int.
  split; [|split].
  - intros r2 d3 r3 d4 r4 d5 st d6 H2 H3 H4 H5.
    revert Hset. unfold_methods. rewrite Hc, Htm. cbn [fst snd dev par log].
    destruct (py_ne_str tm "int"); intros Hset; [|subst d2];
      answer_calls Hc; cbn [app]; rewrite <- !app_assoc;
      destruct (py_ne_str st "error"); reflexivity.
  - intros r2 d3 r3 d4 st d5 H2 H3 H5.
    revert Hset. unfold_methods. rewrite Hc, Htm. cbn [fst snd dev par log].
    destruct (py_ne_str tm "int"); intros Hset; [|subst d2];
      answer_calls Hc; cbn [app]; rewrite <- !app_assoc;
      destruct (py_ne_str st "error"); reflexivity.
  - intros st. unfold py_ne_str. pose proof (py_eq_str_spec st "error") as Hs.
    destruct (py_eq_str st "error"); cbn; split; split; intros Hx;
      try discriminate; try reflexivity.
    + apply Hs; reflexivity.
    + exfalso. apply Hx. apply Hs; reflexivity.
    + apply Hs in Hx. discriminate.
    + intros Hy. apply Hs in Hy. discriminate.
Qed.

(** ** C7: activation *)

(** C7.  When the constructor returns a camera and the camera accepts the
    exposure, [on_activate] returns [None] having done exactly this, in
    this order: registered the DLL location under
    ['devices/dlls/dcamapi'], opened the camera, and called
    [set_exposure] once with the default exposure; [self.cam] is the new
    camera, [self._gain] is the default gain, and [get_gain] returns it.
    Nothing else was asked of the library. *)
Theorem on_activate_applies_defaults a w h d1 r d2 :
  DCAMCamera (dev w) = (Ok h, d1) ->
  dcam_call h (cam_set_exposure (_default_exposure a)) d1 = (Ok r, d2) ->
  let s' :=
    (assign_gain (_default_gain a) (assign_cam h a),
     {| dev := d2;
        par := <["devices/dlls/dcamapi" := _dll_location a]> (par w);
        log := log w ++
               [EvParSet "devices/dlls/dcamapi" (_dll_location a);
                EvNew (Ok h);
                EvCall h (cam_set_exposure (_default_exposure a)) (Ok r)] |}) in
  on_activate (a, w) = (Ok VNone, s') /\
  sdk_calls (log (snd s')) =
    sdk_calls (log w) ++
    [NewCamera; Method h (cam_set_exposure (_default_exposure a))] /\
  fst (get_gain s') = Ok (_default_gain a).
Proof.
  intros Hnew Hexp s'. subst s'. split; [|split].
  - unfold_methods. cbn [fst snd dev par log]. rewrite Hnew.
    cbn [fst snd dev par log cam assign_cam _default_exposure].
    rewrite Hexp. cbn [fst snd]. rewrite <- !app_assoc. reflexivity.
  - cbn [snd log]. unfold sdk_calls. rewrite omap_app. reflexivity.
  - reflexivity.
Qed.

(** ** C8: deactivation *)

(** C8, as the code has it.  With a camera open, [on_deactivate] makes
    one call on the library, [close] on that camera, whatever happened
    before and whatever [close] answers.  When [close] returns, the entry
    ['devices/dlls/dcamapi'] is deleted from [pylablib.par] and the
    method returns [None].  When [close] raises, the method raises the
    same exception and [pylablib.par] is left as it was: the entry is
    not removed. *)
Theorem on_deactivate_closes_once a w h :
  cam a = Some h ->
  sdk_calls (log (snd (snd (on_deactivate (a, w))))) =
    sdk_calls (log w) ++ [Method h close] /\
  (forall r d1,
     dcam_call h close (dev w) = (Ok r, d1) ->
     on_deactivate (a, w) =
       (Ok VNone,
        (a, {| dev := d1; par := delete "devices/dlls/dcamapi" (par w);
               log := log w ++ [EvCall h close (Ok r);
                                EvParDel "devices/dlls/dcamapi"] |})) /\
     delete "devices/dlls/dcamapi" (par w) !! "devices/dlls/dcamapi" = None) /\
  (forall e d1,
     dcam_call h close (dev w) = (Raise e, d1) ->
     on_deactivate (a, w) =
       (Raise e,
        (a, {| dev := d1; par := par w;
               log := log w ++ [EvCall h close (Raise e)] |}))).
Proof.
  intros Hc. split; [|split].
  - unfold_methods. rewrite Hc.
    destruct (dcam_call h close (dev w)) as [[r|e] d1];
      split_answers; read_log; reflexivity.
  - intros r d1 Hclose. split; [|apply lookup_delete_eq].
    unfold_methods. rewrite Hc, Hclose.
    cbn [fst snd dev par log]. rewrite <- app_assoc. reflexivity.
  - intros e d1 Hclose. unfold_methods. rewrite Hc, Hclose. reflexivity.
Qed.

(** * Further properties of the adapter *)

(** ** Requests on an instance that holds no camera *)

(** Before any camera has been opened ([self.cam] is [None]), a request
    whose body begins with a call on [self.cam] raises [AttributeError]
    for that method, and no request other than [on_activate] asks
    anything of the environment: device, [pylablib.par] and log stay as
    they were.  In particular [on_deactivate] then leaves the DLL path
    registered. *)
Theorem no_camera_no_calls a w o :
  cam a = None ->
  (forall m, first_method o = Some m ->
     run_op o (a, w) =
       (Raise (AttributeError "NoneType" (method_name m)), (a, w))) /\
  (is_on_activate o = false -> snd (snd (run_op o (a, w))) = w).
Proof.
  intros Hc. split.
  - intros m Hm. destruct o; try discriminate Hm; injection Hm as <-;
      unfold_methods; rewrite Hc; reflexivity.
  - intros Ho. destruct o; try discriminate Ho;
      unfold_methods; cbn [fst snd]; rewrite ?Hc; try reflexivity;
      split_answers; reflexivity.
Qed.

(** ** What a session keeps *)

(** A property kept by each request of a kind is kept by a session of
    requests of that kind. *)
Lemma run_ops_invariant (P : op -> bool) (Q : adapter * world Dev -> Prop) :
  (forall o s, P o = true -> Q s -> Q (snd (run_op o s))) ->
  forall ops s, forallb P ops = true -> Q s -> Q (snd (run_ops ops s)).
Proof.
  intros Hstep. induction ops as [|o ops IH]; intros s Hf Hq; [exact Hq|].
  cbn [forallb] in Hf. apply andb_prop in Hf as [Ho Hf].
  cbn [run_ops]. pose proof (Hstep o s Ho Hq) as Hq1.
  destruct (run_op o s) as [r s1]. specialize (IH s1 Hf Hq1).
  destruct (run_ops ops s1) as [rs s2]. exact IH.
Qed.

Lemma forallb_true {A} (l : list A) : forallb (fun _ => true) l = true.
Proof. induction l as [|x l IH]; [reflexivity|exact IH]. Qed.

(** Over any session, whatever the library answers and whichever requests
    raise, the seven configuration options of the instance keep the
    values they were loaded with. *)
Theorem config_never_assigned ops s :
  config (fst (snd (run_ops ops s))) = config (fst s).
Proof.
  apply (run_ops_invariant (fun _ => true)
           (fun s' => config (fst s') = config (fst s)));
    [|apply forallb_true|reflexivity].
  clear. intros o [a w] _ <-.
  destruct o; unfold_methods; split_answers; reflexivity.
Qed.

(** Only [on_activate], [set_gain] and [set_binning_value] assign an
    attribute of the instance: a session without them leaves [self]
    exactly as it was, even when requests in it raise. *)
Theorem self_assigned_by_three_requests ops s :
  forallb (fun o => negb (assigns_self o)) ops = true ->
  fst (snd (run_ops ops s)) = fst s.
Proof.
  intros Hf.
  apply (run_ops_invariant (fun o => negb (assigns_self o))
           (fun s' => fst s' = fst s)); [|exact Hf|reflexivity].
  clear. intros o [a w] Ho <-.
  destruct o; try discriminate Ho; unfold_methods; split_answers; reflexivity.
Qed.

(** Only [on_activate] and [on_deactivate] touch [pylablib.par]: a session
    without them leaves the dictionary exactly as it was. *)
Theorem par_touched_by_activation_only ops s :
  forallb (fun o => negb (is_on_activate o) && negb (is_on_deactivate o)) ops = true ->
  par (snd (snd (run_ops ops s))) = par (snd s).
Proof.
  intros Hf.
  apply (run_ops_invariant
           (fun o => negb (is_on_activate o) && negb (is_on_deactivate o))
           (fun s' => par (snd s') = par (snd s))); [|exact Hf|reflexivity].
  clear. intros o [a w] Ho <-.
  destruct o; try discriminate Ho; unfold_methods; split_answers; reflexivity.
Qed.

Lemma opened_cameras_snoc l ev :
  opened_cameras (l ++ [ev]) = opened_cameras l ++ opened_cameras [ev].
Proof. unfold opened_cameras. apply omap_app. Qed.

Lemma close_calls_snoc l ev :
  close_calls (l ++ [ev]) = close_calls l ++ close_calls [ev].
Proof. unfold close_calls. apply omap_app. Qed.

Ltac read_cameras :=
  cbn [fst snd log dev par];
  rewrite ?opened_cameras_snoc, ?close_calls_snoc;
  simpl; rewrite ?app_nil_r.

(** One request closes at most one camera: [on_deactivate] on an instance
    that holds a camera calls [close] on that camera once, whatever the
    call answers; no other request ever calls [close]. *)
Theorem close_called_by_deactivate_only o a w :
  close_calls (log (snd (snd (run_op o (a, w))))) =
    close_calls (log w) ++
    (if is_on_deactivate o then option_list (cam a) else []).
Proof.
  destruct o; unfold_methods; split_answers; read_cameras;
    rewrite <- ?app_assoc; try reflexivity; congruence.
Qed.

(** One request opens at most one camera: the constructor is called by
    [on_activate] and by no other request. *)
Theorem camera_opened_by_activate_only o s :
  is_on_activate o = false ->
  opened_cameras (log (snd (snd (run_op o s)))) = opened_cameras (log (snd s)).
Proof.
  destruct s as [a w]. intros Ho.
  destruct o; try discriminate Ho; unfold_methods; split_answers; read_cameras;
    reflexivity.
Qed.

(** ** The camera held and the cameras opened *)

Lemma last_opened_elem (l : list handle) h : last l = Some h -> h ∈ l.
Proof.
  intros Hl. apply last_Some in Hl as [l' ->].
  apply elem_of_app. right. apply list_elem_of_singleton. reflexivity.
Qed.

Lemma run_op_tracks_last_opened o s :
  tracks_last_opened s -> tracks_last_opened (snd (run_op o s)).
Proof.
  destruct s as [a w]. unfold tracks_last_opened. cbn [fst snd].
  intros [Hcam Hcl].
  destruct o; unfold_methods; split_answers; read_cameras;
    rewrite ?last_snoc;
    (split; [congruence|]); intros h' Hin;
    rewrite ?elem_of_app, ?list_elem_of_singleton in *;
    try (destruct Hin as [Hin| ->]); auto;
    apply last_opened_elem; congruence.
Qed.

(** In every session on a new instance in a fresh process, [self.cam] is
    the camera the constructor returned last ([None] when it returned
    none), so a camera opened by an earlier [on_activate] is not
    reachable from the instance any more; and [close] has only been
    called on cameras the constructor returned. *)
Theorem cam_is_last_opened dll e g (d : Dev) ops :
  let s' := snd (run_ops ops (new_adapter dll e g, fresh_world d)) in
  cam (fst s') = last (opened_cameras (log (snd s'))) /\
  forall h, h ∈ close_calls (log (snd s')) -> h ∈ opened_cameras (log (snd s')).
Proof.
  apply (run_ops_invariant (fun _ => true) tracks_last_opened).
  - intros o s _. apply run_op_tracks_last_opened.
  - apply forallb_true.
  - split; [reflexivity|]. cbn. intros h Hin. exact Hin.
Qed.

(** ** The name of the camera *)

Lemma py_strs_strings (ss : list string) : py_strs (map VStr ss) = Some ss.
Proof.
  induction ss as [|x ss IH]; [reflexivity|]. cbn. rewrite IH. reflexivity.
Qed.

Lemma py_strs_not_str (pre post : list pyval) (v : pyval) :
  (forall x, v <> VStr x) -> py_strs (pre ++ v :: post) = None.
Proof.
  intros Hv. induction pre as [|p pre IH]; cbn.
  - destruct v; try reflexivity. exfalso. exact (Hv s eq_refl).
  - rewrite IH. destruct p; reflexivity.
Qed.

Lemma code_points_ascii (str : string) :
  forallb (fun c => Ascii.nat_of_ascii c <? 128)%nat (list_ascii_of_string str) = true ->
  code_points str = map (fun c => String c EmptyString) (list_ascii_of_string str).
Proof.
  induction str as [|c rest IH]; [reflexivity|].
  cbn [list_ascii_of_string forallb map code_points].
  intros Hf. apply andb_prop in Hf as [_ Hrest].
  rewrite (IH Hrest). destruct rest as [|c' rest']; [reflexivity|].
  cbn [list_ascii_of_string map starts_with_continuation forallb] in *.
  apply andb_prop in Hrest as [Hc' _]. unfold is_continuation.
  apply Nat.ltb_lt in Hc'.
  destruct (Nat.leb_spec 128 (Ascii.nat_of_ascii c')) as [Hge|_]; [lia|].
  reflexivity.
Qed.

(** With a camera open, [get_name] makes one call and leaves the
    instance untouched.  When the library answers a tuple or a list of
    strings the result is those strings with one space between
    neighbours (the empty string for an empty answer, the string itself
    for a single one).  When it answers one string, the result is its
    code points with a space between each two; for a string of ASCII
    characters these are its characters.  When an item is not a string,
    or the answer is [None], a boolean or a number, [get_name] raises
    [TypeError].  For any other object the outcome follows what the
    object answers to iteration: its items are joined in the same way,
    and the exception it raises is raised. *)
Theorem get_name_joins_with_spaces a w h n d :
  cam a = Some h ->
  dcam_call h cam_get_name (dev w) = (Ok n, d) ->
  let w' := {| dev := d; par := par w;
               log := log w ++ [EvCall h cam_get_name (Ok n)] |} in
  (forall ss,
     n = VTuple (map VStr ss) \/ n = VList (map VStr ss) \/
     (exists id t, n = VObj id t (inl (map VStr ss))) ->
     get_name (a, w) = (Ok (VStr (String.concat " " ss)), (a, w'))) /\
  (forall str, n = VStr str ->
     get_name (a, w) =
       (Ok (VStr (String.concat " " (code_points str))), (a, w')) /\
     (forallb (fun c => Ascii.nat_of_ascii c <? 128)%nat
        (list_ascii_of_string str) = true ->
      get_name (a, w) =
        (Ok (VStr (String.concat " "
                     (map (fun c => String c EmptyString)
                        (list_ascii_of_string str)))),
         (a, w')))) /\
  (forall pre v post,
     n = VTuple (pre ++ v :: post) \/ n = VList (pre ++ v :: post) \/
     (exists id t, n = VObj id t (inl (pre ++ v :: post))) ->
     (forall x, v <> VStr x) ->
     exists msg, get_name (a, w) = (Raise (TypeError msg), (a, w'))) /\
  (n = VNone \/ (exists b, n = VBool b) \/ (exists z, n = VInt z) \/
   (exists bits, n = VFloat bits) ->
   exists msg, get_name (a, w) = (Raise (TypeError msg), (a, w'))) /\
  (forall id t e, n = VObj id t (inr e) ->
     get_name (a, w) = (Raise e, (a, w'))).
Proof.
  intros Hc Hn w'. subst w'.
  assert (Hrun : get_name (a, w) =
                 (match py_tuple n with
                  | Raise e => raise e
                  | Ok items =>
                      match py_strs items with
                      | None => raise (TypeError "sequence item: expected str instance")
                      | Some ss => ret (VStr (String.concat " " ss))
                      end
                  end)
                   (a, {| dev := d; par := par w;
                          log := log w ++ [EvCall h cam_get_name (Ok n)] |})).
  { unfold get_name, bind. rewrite (cam_call_some _ _ _ _ Hc), Hn. reflexivity. }
  rewrite Hrun. split; [|split; [|split; [|split]]].
  - intros ss [->|[->|(id & t & ->)]]; cbn [py_tuple];
      rewrite py_strs_strings; reflexivity.
  - intros str ->. cbn [py_tuple]. rewrite py_strs_strings.
    split; [reflexivity|]. intros Hascii.
    rewrite (code_points_ascii _ Hascii). reflexivity.
  - intros pre v post [->|[->|(id & t & ->)]] Hv; cbn [py_tuple];
      rewrite (py_strs_not_str _ _ _ Hv); eexists; reflexivity.
  - intros [->|[[b ->]|[[z ->]|[bits ->]]]]; eexists; reflexivity.
  - intros id t e ->. reflexivity.
Qed.

(** ** Activation and deactivation that fail *)

(** When the constructor raises, [on_activate] raises the same exception
    having already registered the DLL path, which stays registered;
    [self.cam] and [self._gain] are as before.  When the constructor
    returns a camera but [set_exposure] raises, [on_activate] raises that
    exception with the camera kept in [self.cam] and not closed, the DLL
    path registered, and [self._gain] as before (the default gain is not
    applied). *)
Theorem on_activate_failure_leaves_registration a w :
  (forall e d1,
     DCAMCamera (dev w) = (Raise e, d1) ->
     on_activate (a, w) =
       (Raise e,
        (a, {| dev := d1;
               par := <["devices/dlls/dcamapi" := _dll_location a]> (par w);
               log := log w ++
                      [EvParSet "devices/dlls/dcamapi" (_dll_location a);
                       EvNew (Raise e)] |}))) /\
  (forall h d1 e d2,
     DCAMCamera (dev w) = (Ok h, d1) ->
     dcam_call h (cam_set_exposure (_default_exposure a)) d1 = (Raise e, d2) ->
     on_activate (a, w) =
       (Raise e,
        (assign_cam h a,
         {| dev := d2;
            par := <["devices/dlls/dcamapi" := _dll_location a]> (par w);
            log := log w ++
                   [EvParSet "devices/dlls/dcamapi" (_dll_location a);
                    EvNew (Ok h);
                    EvCall h (cam_set_exposure (_default_exposure a)) (Raise e)] |})) /\
     _gain (assign_cam h a) = _gain a).
Proof.
  split.
  - intros e d1 Hnew. unfold_methods. cbn [fst snd dev par log].
    rewrite Hnew. cbn [fst snd]. rewrite <- !app_assoc. reflexivity.
  - intros h d1 e d2 Hnew Hexp. split; [|reflexivity].
    unfold_methods. cbn [fst snd dev par log]. rewrite Hnew.
    cbn [fst snd dev par log cam assign_cam _default_exposure].
    rewrite Hexp. cbn [fst snd]. rewrite <- !app_assoc. reflexivity.
Qed.

(** When [close] raises, [on_deactivate] raises the same exception and
    stops there: [pylablib.par] is not touched, so the DLL path stays
    registered, and the instance is as before. *)
Theorem on_deactivate_close_error_keeps_registration a w h e d1 :
  cam a = Some h ->
  dcam_call h close (dev w) = (Raise e, d1) ->
  on_deactivate (a, w) =
    (Raise e,
     (a, {| dev := d1; par := par w;
            log := log w ++ [EvCall h close (Raise e)] |})).
Proof.
  intros Hc Hclose. unfold on_deactivate, bind.
  rewrite (cam_call_some _ _ _ _ Hc), Hclose. reflexivity.
Qed.

(** An activation followed by a deactivation, both returning: the library
    saw the constructor, one [set_exposure] and one [close], all on the
    camera the constructor returned, and [pylablib.par] is what it was
    before the activation, given that the DLL path was not registered
    then. *)
Theorem activate_then_deactivate_restores_par a w v1 s1 v2 s2 :
  par w !! "devices/dlls/dcamapi" = None ->
  on_activate (a, w) = (Ok v1, s1) ->
  on_deactivate s1 = (Ok v2, s2) ->
  par (snd s2) = par w /\
  exists h,
    cam (fst s2) = Some h /\
    sdk_calls (log (snd s2)) =
      sdk_calls (log w) ++
      [NewCamera; Method h (cam_set_exposure (_default_exposure a));
       Method h close].
Proof.
  intros Hfree Hact Hde. unfold_methods. split_answers.
  split; [apply delete_insert_id; assumption|].
  eexists. split; [reflexivity|]. read_log. reflexivity.
Qed.

(** ** The binning value *)

(** What [set_binning_value] stored is what [get_binning_value] returns,
    without asking the library, after any further requests other than
    [set_binning_value], whether they return or raise. *)
Theorem binning_value_round_trip b ops s :
  forallb (fun o => negb (is_set_binning_value o)) ops = true ->
  get_binning_value (snd (run_ops (SetBinningValue b :: ops) s)) =
    (Ok b, snd (run_ops (SetBinningValue b :: ops) s)).
Proof.
  intros Hf. destruct s as [a w]. cbn [run_ops run_op].
  unfold set_binning_value, bind, self_set, ret. cbn [fst snd].
  pose proof (run_ops_bin_value ops (assign_bin_value b a, w) Hf) as Hb.
  destruct (run_ops ops _) as [rs [a' w']]. cbn [fst snd] in *.
  unfold get_binning_value, bind, self_get, ret. cbn [fst snd].
  rewrite Hb. reflexivity.
Qed.

(** ** Requests that are one call *)

(** With a camera open, each of the thirteen forwarding requests makes
    exactly one call, of its own method with the arguments it was given in
    the order it was given them, and leaves the instance alone.  A getter
    returns the library's answer unchanged; a setter returns [None]
    whatever the library answered ([set_region_of_interest] too); both
    raise what the library raised. *)
Theorem forwarded_requests_make_one_call o m keep a w h :
  forwarded o = Some (m, keep) ->
  cam a = Some h ->
  run_op o (a, w) =
    (match fst (dcam_call h m (dev w)) with
     | Ok v => Ok (if keep then v else VNone)
     | Raise e => Raise e
     end,
     (a, {| dev := snd (dcam_call h m (dev w)); par := par w;
            log := log w ++ [EvCall h m (fst (dcam_call h m (dev w)))] |})).
Proof.
  intros Hf Hc.
  destruct o; try discriminate Hf; injection Hf as <- <-;
    unfold_methods; rewrite Hc;
    destruct (dcam_call h _ (dev w)) as [[v|e] d]; reflexivity.
Qed.

(** ** Where exceptions come from *)

Lemma log_extension_nil (l evs : list event) : l = l ++ evs -> evs = [].
Proof.
  intros Hl. rewrite <- (app_nil_r l) in Hl at 1.
  apply app_inv_head in Hl. congruence.
Qed.

Ltac name_new_events Hlog :=
  cbn [fst snd log dev par] in Hlog; rewrite <- ?app_assoc in Hlog;
  first [ apply log_extension_nil in Hlog
        | apply app_inv_head in Hlog ];
  subst.

Ltac pick_event Hin :=
  repeat first [ apply elem_of_cons in Hin as [->|Hin]
               | apply elem_of_nil in Hin; contradiction ].

(** A call that raises ends the request: it is the last thing the
    request asks of the environment, and the request raises the same
    exception. *)
Lemma raising_answer_ends_request o a w : forall evs ev e,
  log (snd (snd (run_op o (a, w)))) = log w ++ evs ->
  ev ∈ evs ->
  answer_raised ev = Some e ->
  last evs = Some ev /\ fst (run_op o (a, w)) = Raise e.
Proof.
  destruct o; unfold_methods; split_answers;
    intros evs ev e' Hlog Hin Hr; name_new_events Hlog; pick_event Hin;
    cbn in Hr; repeat case_match; simplify_eq; split; reflexivity.
Qed.


(** With a camera open, the calls [start_single_acquisition] and
    [start_live_acquisition] make are, in every outcome, an initial part
    of their full sequence, and a call that raises is the last one: the
    method then raises that exception, nothing is called after it,
    nothing is repeated, and neither [stop_acquisition] nor [close] is
    called to clean up. *)
Theorem start_acquisition_stops_at_first_failure a w h :
  cam a = Some h ->
  let set_int :=
    match fst (dcam_call h cam_get_trigger_mode (dev w)) with
    | Ok tm =>
        if py_ne_str tm "int"
        then [Method h (cam_set_trigger_mode (VStr "int"))] else []
    | Raise _ => []
    end in
  sdk_calls (log (snd (snd (start_single_acquisition (a, w))))) `prefix_of`
    sdk_calls (log w) ++
    Method h cam_get_trigger_mode :: set_int ++
    [Method h (setup_acquisition "snap" 1);
     Method h (start_acquisition "snap" 1);
     Method h wait_for_frame;
     Method h get_status] /\
  sdk_calls (log (snd (snd (start_live_acquisition (a, w))))) `prefix_of`
    sdk_calls (log w) ++
    Method h cam_get_trigger_mode :: set_int ++
    [Method h (setup_acquisition "sequence" 100);
     Method h (start_acquisition "sequence" 100);
     Method h get_status] /\
  (forall evs ev e,
     log (snd (snd (start_single_acquisition (a, w)))) = log w ++ evs ->
     ev ∈ evs ->
     answer_raised ev = Some e ->
     last evs = Some ev /\ fst (start_single_acquisition (a, w)) = Raise e) /\
  (forall evs ev e,
     log (snd (snd (start_live_acquisition (a, w)))) = log w ++ evs ->
     ev ∈ evs ->
     answer_raised ev = Some e ->
     last evs = Some ev /\ fst (start_live_acquisition (a, w)) = Raise e).
Proof.
  intros Hc set_int. subst set_int.
  split; [|split; [|split]];
    [| |apply (raising_answer_ends_request StartSingleAcquisition)
       |apply (raising_answer_ends_request StartLiveAcquisition)];
    unfold_methods; rewrite Hc;
    (destruct (dcam_call h cam_get_trigger_mode (dev w)) as [[tm|e] d1] eqn:E1;
     cbn [fst snd];
     [destruct (py_ne_str tm "int") eqn:Etm|];
     split_answers; read_log; apply prefix_app;
     repeat apply prefix_cons; first [apply prefix_nil|reflexivity]).
Qed.

(** ** Options that are never read *)

Lemma run_op_unread_options mode trig roi hbin o a w :
  run_op o (with_unread_options mode trig roi hbin a, w) =
    (fst (run_op o (a, w)),
     (with_unread_options mode trig roi hbin (fst (snd (run_op o (a, w)))),
      snd (snd (run_op o (a, w))))).
Proof.
  destruct o; unfold_methods; cbn [fst snd cam with_unread_options _bin_value
    _gain _dll_location _default_exposure _default_gain];
    split_answers; reflexivity.
Qed.

(** The options [default_acquisition_mode], [default_trigger_mode],
    [default_ROI] and [default_hbin] are never read: with any other values
    for them, every session gives the same outcomes and makes the same
    calls with the same arguments, and leaves the same environment. *)
Theorem unread_options_have_no_effect mode trig roi hbin ops : forall a w,
  fst (run_ops ops (with_unread_options mode trig roi hbin a, w)) =
    fst (run_ops ops (a, w)) /\
  snd (snd (run_ops ops (with_unread_options mode trig roi hbin a, w))) =
    snd (snd (run_ops ops (a, w))).
Proof.
  induction ops as [|o ops IH]; intros a w; [split; reflexivity|].
  cbn [run_ops]. rewrite run_op_unread_options.
  destruct (run_op o (a, w)) as [r [a1 w1]]. cbn [fst snd].
  destruct (IH a1 w1) as [IH1 IH2].
  destruct (run_ops ops (with_unread_options mode trig roi hbin a1, w1))
    as [rs' s'].
  destruct (run_ops ops (a1, w1)) as [rs s2]. cbn [fst snd] in *.
  subst. split; [reflexivity|exact IH2].
Qed.

End Properties.

(** * The properties on the scripted library *)

(** C2 as stated fails: after an activation followed by a deactivation,
    both returning, [self.cam] still holds camera [0]; it is not [None]. *)
Lemma cam_not_null_after_deactivate :
  let s0 := (example_adapter, scripted_world []) in
  let s1 := snd (on_activate s0) in
  let s2 := snd (on_deactivate s1) in
  fst (on_activate s0) = Ok VNone /\
  fst (on_deactivate s1) = Ok VNone /\
  cam (fst s2) = Some 0 /\
  cam (fst s2) <> None.
Proof. repeat split; try reflexivity. discriminate. Qed.

(** C8 as stated fails: when [close] raises, [on_deactivate] raises
    too and the DLL path is still registered afterwards. *)
Lemma registration_stays_when_close_raises :
  let e := SdkError (VStr "busy") in
  let s := snd (on_activate (example_adapter, scripted_world [Ok VNone; Raise e])) in
  cam (fst s) = Some 0 /\
  fst (on_deactivate s) = Raise e /\
  par (snd (snd (on_deactivate s))) !! "devices/dlls/dcamapi" =
    Some (VStr "C:\Adyant\dlls") /\
  par (snd (snd (on_deactivate s))) !! "devices/dlls/dcamapi" <> None.
Proof. repeat split; try reflexivity. discriminate. Qed.

(** C1 on a session: [set_gain(5)], then four requests that do not call
    [set_gain], one of which the library answers by raising. *)
Lemma get_gain_returns_last_set_gain_witness :
  let ops := [GetExposure; StartSingleAcquisition; SetBinningValue (VInt 2); OnDeactivate] in
  forallb (fun o => negb (calls_set_gain o)) ops = true /\
  fst (get_gain (snd (run_ops (SetGain (VInt 5) :: ops)
                        (example_adapter, scripted_world [Raise (SdkError VNone)])))) =
    Ok (VInt 5).
Proof.
  split; [reflexivity|].
  apply (proj2 (proj2 get_gain_returns_last_set_gain)). reflexivity.
Defined.

(** C2 on a session: activation, then a live acquisition, deactivation
    and a request on the closed camera. *)
Lemma cam_set_by_activate_kept_by_deactivate_witness :
  let s0 := (example_adapter, scripted_world []) in
  let s1 := snd (on_activate s0) in
  on_activate s0 = (Ok VNone, s1) /\
  cam (fst s1) = Some 0 /\
  cam (fst (snd (on_deactivate s1))) = Some 0 /\
  cam (fst (snd (run_ops [StartLiveAcquisition; OnDeactivate; GetName] s1))) <> None.
Proof.
  intros s0 s1.
  pose proof (@cam_set_by_activate_kept_by_deactivate script _) as (Hact & Hde & Hops).
  assert (Hrun : on_activate s0 = (Ok VNone, s1)) by reflexivity.
  destruct (Hact s0 VNone s1 Hrun) as (h & Hnew & Hcam).
  injection Hnew as <-.
  split; [exact Hrun|]. split; [exact Hcam|]. split.
  - rewrite (Hde s1). exact Hcam.
  - apply Hops. rewrite Hcam. discriminate.
Defined.

(** C3 with the camera in external trigger mode. *)
Lemma start_single_acquisition_call_order_witness :
  let w := scripted_world [Ok (VStr "ext"); Ok VNone; Ok VNone; Ok VNone;
                           Ok VNone; Ok (VStr "ready")] in
  let out := start_single_acquisition (opened_adapter, w) in
  cam opened_adapter = Some 0 /\
  out = (Ok (VBool true), snd out) /\
  sdk_calls (log (snd (snd out))) =
    [Method 0 cam_get_trigger_mode;
     Method 0 (cam_set_trigger_mode (VStr "int"));
     Method 0 (setup_acquisition "snap" 1);
     Method 0 (start_acquisition "snap" 1);
     Method 0 wait_for_frame;
     Method 0 get_status].
Proof.
  intros w out.
  assert (Hrun : out = (Ok (VBool true), snd out)) by reflexivity.
  split; [reflexivity|]. split; [exact Hrun|].
  destruct (start_single_acquisition_call_order opened_adapter w 0
              (VBool true) (snd out) eq_refl Hrun) as (tm & Htm & Hne & _).
  injection Htm as <-. apply Hne. discriminate.
Defined.

(** C4 on a single acquisition that ends in the ['error'] status and on
    a live acquisition started from external trigger mode. *)
Lemma start_acquisition_false_iff_error_witness :
  let w1 := scripted_world [Ok (VStr "int"); Ok VNone; Ok VNone; Ok VNone;
                            Ok (VStr "error")] in
  let w2 := scripted_world [Ok (VStr "ext"); Ok VNone; Ok VNone; Ok VNone;
                            Ok (VStr "busy")] in
  cam opened_adapter = Some 0 /\
  fst (start_single_acquisition (opened_adapter, w1)) = Ok (VBool false) /\
  fst (start_live_acquisition (opened_adapter, w2)) = Ok (VBool true) /\
  log (snd (snd (start_live_acquisition (opened_adapter, w2)))) =
    [EvCall 0 cam_get_trigger_mode (Ok (VStr "ext"));
     EvCall 0 (cam_set_trigger_mode (VStr "int")) (Ok VNone);
     EvCall 0 (setup_acquisition "sequence" 100) (Ok VNone);
     EvCall 0 (start_acquisition "sequence" 100) (Ok VNone);
     EvCall 0 get_status (Ok (VStr "busy"))].
Proof.
  intros w1 w2.
  pose (after := fun rs : list (res pyval) => example_script rs).
  assert (Hsingle :=
    proj1 (start_acquisition_false_iff_error opened_adapter w1 0
             (VStr "int")
             (after [Ok VNone; Ok VNone; Ok VNone; Ok (VStr "error")]) VNone
             (after [Ok VNone; Ok VNone; Ok VNone; Ok (VStr "error")])
             ltac:(reflexivity) ltac:(reflexivity) ltac:(vm_compute; reflexivity))
      VNone (after [Ok VNone; Ok VNone; Ok (VStr "error")])
      VNone (after [Ok VNone; Ok (VStr "error")])
      VNone (after [Ok (VStr "error")])
      (VStr "error") (after [])
      ltac:(reflexivity) ltac:(reflexivity) ltac:(reflexivity) ltac:(reflexivity)).
  assert (Hlive :=
    proj1 (proj2 (start_acquisition_false_iff_error opened_adapter w2 0
             (VStr "ext")
             (after [Ok VNone; Ok VNone; Ok VNone; Ok (VStr "busy")]) VNone
             (after [Ok VNone; Ok VNone; Ok (VStr "busy")])
             ltac:(reflexivity) ltac:(reflexivity) ltac:(vm_compute; reflexivity)))
      VNone (after [Ok VNone; Ok (VStr "busy")])
      VNone (after [Ok (VStr "busy")])
      (VStr "busy") (after [])
      ltac:(reflexivity) ltac:(reflexivity) ltac:(reflexivity)).
  split; [reflexivity|]. rewrite Hsingle, Hlive.
  split; [reflexivity|]. split; reflexivity.
Defined.

(** C5 with the camera reporting that nothing is in progress, and with
    the camera reporting that an acquisition still is. *)
Lemma stop_acquisition_iff_not_in_progress_witness :
  let w1 := scripted_world [Ok VNone; Ok (VBool false)] in
  let w2 := scripted_world [Ok VNone; Ok (VBool true)] in
  cam opened_adapter = Some 0 /\
  fst (dcam_call 0 acquisition_in_progress
         (snd (dcam_call 0 cam_stop_acquisition (dev w1)))) = Ok (VBool false) /\
  fst (stop_acquisition (opened_adapter, w1)) = Ok (VBool true) /\
  fst (dcam_call 0 acquisition_in_progress
         (snd (dcam_call 0 cam_stop_acquisition (dev w2)))) = Ok (VBool true) /\
  fst (stop_acquisition (opened_adapter, w2)) = Ok (VBool false).
Proof.
  intros w1 w2.
  pose (after := fun rs : list (res pyval) => example_script rs).
  destruct (stop_acquisition_iff_not_in_progress opened_adapter w1 0
              VNone (after [Ok (VBool false)]) (VBool false) (after [])
              ltac:(reflexivity) ltac:(reflexivity) ltac:(reflexivity))
    as (_ & Hfalse & _).
  destruct (stop_acquisition_iff_not_in_progress opened_adapter w2 0
              VNone (after [Ok (VBool true)]) (VBool true) (after [])
              ltac:(reflexivity) ltac:(reflexivity) ltac:(reflexivity))
    as (Htrue & _).
  split; [reflexivity|]. split; [reflexivity|].
  rewrite (Hfalse eq_refl), (Htrue eq_refl).
  split; [reflexivity|]. split; reflexivity.
Defined.

(** C6 with the camera reporting ['acquiring']. *)
Lemma get_ready_state_iff_ready_witness :
  let w := scripted_world [Ok (VStr "acquiring")] in
  cam opened_adapter = Some 0 /\
  fst (dcam_call 0 get_status (dev w)) = Ok (VStr "acquiring") /\
  fst (get_ready_state (opened_adapter, w)) = Ok (VBool false).
Proof.
  intros w.
  pose (d := snd (dcam_call 0 get_status (dev w))).
  assert (Hst : dcam_call 0 get_status (dev w) = (Ok (VStr "acquiring"), d))
    by reflexivity.
  split; [reflexivity|]. split; [reflexivity|].
  rewrite (proj1 (get_ready_state_iff_ready opened_adapter w 0
                    (VStr "acquiring") d eq_refl Hst)).
  reflexivity.
Defined.

(** C7 with the configuration of the class docstring. *)
Lemma on_activate_applies_defaults_witness :
  let w := scripted_world [Ok VNone] in
  let out := on_activate (example_adapter, w) in
  fst (DCAMCamera (dev w)) = Ok 0 /\
  fst out = Ok VNone /\
  log (snd (snd out)) =
    [EvParSet "devices/dlls/dcamapi" (VStr "C:\Adyant\dlls");
     EvNew (Ok 0);
     EvCall 0 (cam_set_exposure (VFloat 4607182418800017408)) (Ok VNone)] /\
  fst (get_gain (snd out)) = Ok (VFloat 4607182418800017408).
Proof.
  intros w out. split; [reflexivity|].
  pose (d1 := snd (DCAMCamera (dev w))).
  pose (e := _default_exposure example_adapter).
  pose (d2 := snd (dcam_call 0 (cam_set_exposure e) d1)).
  assert (Hnew : DCAMCamera (dev w) = (Ok 0, d1)) by reflexivity.
  assert (Hexp : dcam_call 0 (cam_set_exposure e) d1 = (Ok VNone, d2))
    by reflexivity.
  destruct (on_activate_applies_defaults example_adapter w 0 d1 VNone d2
              Hnew Hexp) as (Hrun & _ & Hgain).
  subst out. rewrite Hrun.
  split; [reflexivity|]. split; [reflexivity|]. exact Hgain.
Defined.

(** C8 after an activation and a single acquisition that ended in the
    ['error'] status. *)
Lemma on_deactivate_closes_once_witness :
  let s0 := (example_adapter,
             scripted_world [Ok VNone; Ok (VStr "int"); Ok VNone; Ok VNone;
                             Ok VNone; Ok (VStr "error")]) in
  let before := run_ops [OnActivate; StartSingleAcquisition] s0 in
  let a := fst (snd before) in
  let w := snd (snd before) in
  fst before = [Ok VNone; Ok (VBool false)] /\
  cam a = Some 0 /\
  fst (dcam_call 0 close (dev w)) = Ok VNone /\
  sdk_calls (log (snd (snd (on_deactivate (a, w))))) =
    sdk_calls (log w) ++ [Method 0 close] /\
  fst (on_deactivate (a, w)) = Ok VNone /\
  par (snd (snd (on_deactivate (a, w)))) !! "devices/dlls/dcamapi" = None.
Proof.
  intros s0 before a w.
  assert (Hc : cam a = Some 0) by reflexivity.
  pose (d1 := snd (dcam_call 0 close (dev w))).
  assert (Hcl : dcam_call 0 close (dev w) = (Ok VNone, d1)) by reflexivity.
  destruct (on_deactivate_closes_once a w 0 Hc) as (Hcalls & Hclose & _).
  destruct (Hclose VNone d1 Hcl) as (Hrun & Hgone).
  split; [reflexivity|]. split; [reflexivity|]. split; [reflexivity|].
  split; [exact Hcalls|]. rewrite Hrun. split; [reflexivity|exact Hgone].
Defined.

(** C10 after an activation and two more requests. *)
Lemma get_binning_value_unset_raises_witness :
  let ops := [OnActivate; SetGain (VInt 3); StartLiveAcquisition] in
  forallb (fun o => negb (is_set_binning_value o)) ops = true /\
  fst (get_binning_value
         (snd (run_ops ops (example_adapter, scripted_world [])))) =
    Raise (AttributeError "HamamatsuImagEMX2" "_bin_value").
Proof.
  split; [reflexivity|].
  apply (proj1 (proj2 get_binning_value_unset_raises)). reflexivity.
Defined.

(** * The further properties on the scripted library *)

(** Deactivating an instance that was never activated. *)
Lemma no_camera_no_calls_witness :
  let w := scripted_world [] in
  cam example_adapter = None /\
  run_op OnDeactivate (example_adapter, w) =
    (Raise (AttributeError "NoneType" "close"), (example_adapter, w)) /\
  snd (snd (run_op GetBinningValue (example_adapter, w))) = w.
Proof.
  intros w.
  destruct (no_camera_no_calls example_adapter w OnDeactivate eq_refl) as [Hm _].
  destruct (no_camera_no_calls example_adapter w GetBinningValue eq_refl) as [_ Hw].
  split; [reflexivity|]. split; [exact (Hm close eq_refl)|exact (Hw eq_refl)].
Defined.

(** A session of acquisitions on an opened camera, one of them failing. *)
Lemma self_assigned_by_three_requests_witness :
  let ops := [StartSingleAcquisition; GetName; OnDeactivate; StopAcquisition] in
  let s := (opened_adapter, scripted_world [Ok (VStr "ext"); Raise (SdkError VNone)]) in
  forallb (fun o => negb (assigns_self o)) ops = true /\
  fst (snd (run_ops ops s)) = opened_adapter.
Proof.
  intros ops s. split; [reflexivity|].
  exact (self_assigned_by_three_requests ops s eq_refl).
Defined.

Lemma par_touched_by_activation_only_witness :
  let ops := [StartLiveAcquisition; SetGain (VInt 2); GetROI] in
  let s := snd (on_activate (example_adapter, scripted_world [])) in
  forallb (fun o => negb (is_on_activate o) && negb (is_on_deactivate o)) ops = true /\
  par (snd (snd (run_ops ops s))) !! "devices/dlls/dcamapi" =
    Some (VStr "C:\Adyant\dlls").
Proof.
  intros ops s. split; [reflexivity|].
  rewrite (par_touched_by_activation_only ops s eq_refl). reflexivity.
Defined.

Lemma camera_opened_by_activate_only_witness :
  let s := snd (on_activate (example_adapter, scripted_world [])) in
  is_on_activate StartLiveAcquisition = false /\
  opened_cameras (log (snd (snd (run_op StartLiveAcquisition s)))) = [0].
Proof.
  intros s. split; [reflexivity|].
  rewrite (camera_opened_by_activate_only StartLiveAcquisition s eq_refl).
  reflexivity.
Defined.

(** Two activations and a deactivation: camera [1] is held and closed,
    camera [0] is neither. *)
Lemma cam_is_last_opened_witness :
  let s' := snd (run_ops [OnActivate; OnActivate; OnDeactivate]
                   (example_adapter, scripted_world [])) in
  cam (fst s') = Some 1 /\
  opened_cameras (log (snd s')) = [0; 1] /\
  close_calls (log (snd s')) = [1] /\
  1 ∈ opened_cameras (log (snd s')).
Proof.
  intros s'.
  destruct (cam_is_last_opened (VStr "C:\Adyant\dlls")
              (VFloat 4607182418800017408) (VFloat 4607182418800017408)
              (example_script []) [OnActivate; OnActivate; OnDeactivate])
    as [Hcam Hcl].
  split; [exact Hcam|]. split; [reflexivity|]. split; [reflexivity|].
  apply Hcl. apply list_elem_of_singleton. reflexivity.
Defined.

(** A name that arrives as vendor, model and serial number, and a name
    that arrives as one two-character string. *)
Lemma get_name_joins_with_spaces_witness :
  let n := VTuple [VStr "Hamamatsu"; VStr "C9100-23B"; VStr "S/N 1"] in
  let w := scripted_world [Ok n] in
  let w2 := scripted_world [Ok (VStr "µm")] in
  cam opened_adapter = Some 0 /\
  fst (dcam_call 0 cam_get_name (dev w)) = Ok n /\
  fst (get_name (opened_adapter, w)) = Ok (VStr "Hamamatsu C9100-23B S/N 1") /\
  fst (get_name (opened_adapter, w2)) = Ok (VStr "µ m").
Proof.
  intros n w w2.
  destruct (get_name_joins_with_spaces opened_adapter w 0 n (example_script [])
              ltac:(reflexivity) ltac:(reflexivity)) as (Htuple & _).
  destruct (get_name_joins_with_spaces opened_adapter w2 0 (VStr "µm")
              (example_script []) ltac:(reflexivity) ltac:(reflexivity))
    as (_ & Hstr & _).
  split; [reflexivity|]. split; [reflexivity|].
  rewrite (Htuple ["Hamamatsu"; "C9100-23B"; "S/N 1"] (or_introl eq_refl)).
  rewrite (proj1 (Hstr "µm" eq_refl)).
  split; reflexivity.
Defined.

(** A camera that cannot be opened. *)
Lemma on_activate_failure_leaves_registration_witness :
  let e := SdkError (VStr "no camera") in
  let d := {| answers := []; next_handle := 0; open_error := Some e |} in
  let out := on_activate (example_adapter, fresh_world d) in
  fst (DCAMCamera d) = Raise e /\
  fst out = Raise e /\
  cam (fst (snd out)) = None /\
  par (snd (snd out)) !! "devices/dlls/dcamapi" = Some (VStr "C:\Adyant\dlls").
Proof.
  intros e d out.
  assert (Hnew : DCAMCamera (dev (fresh_world d)) = (Raise e, d)) by reflexivity.
  destruct (on_activate_failure_leaves_registration example_adapter (fresh_world d))
    as [Hopen _].
  subst out. rewrite (Hopen e d Hnew).
  split; [reflexivity|]. split; [reflexivity|]. split; reflexivity.
Defined.

Lemma on_deactivate_close_error_keeps_registration_witness :
  let e := SdkError (VStr "busy") in
  let s := snd (on_activate (example_adapter, scripted_world [Ok VNone; Raise e])) in
  cam (fst s) = Some 0 /\
  fst (dcam_call 0 close (dev (snd s))) = Raise e /\
  fst (on_deactivate s) = Raise e /\
  par (snd (snd (on_deactivate s))) !! "devices/dlls/dcamapi" =
    Some (VStr "C:\Adyant\dlls").
Proof.
  intros e s.
  pose (d1 := snd (dcam_call 0 close (dev (snd s)))).
  assert (Hc : cam (fst s) = Some 0) by reflexivity.
  assert (Hcl : dcam_call 0 close (dev (snd s)) = (Raise e, d1)) by reflexivity.
  pose proof (on_deactivate_close_error_keeps_registration
                (fst s) (snd s) 0 e d1 Hc Hcl) as Hrun.
  split; [exact Hc|]. split; [reflexivity|].
  change s with (fst s, snd s). rewrite Hrun.
  split; reflexivity.
Defined.

Lemma activate_then_deactivate_restores_par_witness :
  let w := scripted_world [] in
  let out1 := on_activate (example_adapter, w) in
  let out2 := on_deactivate (snd out1) in
  par w !! "devices/dlls/dcamapi" = None /\
  fst out1 = Ok VNone /\ fst out2 = Ok VNone /\
  par (snd (snd out2)) = par w.
Proof.
  intros w out1 out2.
  assert (H1 : on_activate (example_adapter, w) = (Ok VNone, snd out1))
    by reflexivity.
  assert (H2 : on_deactivate (snd out1) = (Ok VNone, snd out2)) by reflexivity.
  destruct (activate_then_deactivate_restores_par example_adapter w
              VNone (snd out1) VNone (snd out2) eq_refl H1 H2) as [Hpar _].
  split; [reflexivity|]. split; [reflexivity|]. split; [reflexivity|exact Hpar].
Defined.

Lemma binning_value_round_trip_witness :
  let ops := [OnActivate; StartLiveAcquisition; SetGain (VInt 7)] in
  forallb (fun o => negb (is_set_binning_value o)) ops = true /\
  fst (get_binning_value
         (snd (run_ops (SetBinningValue (VInt 2) :: ops)
                 (example_adapter, scripted_world [])))) = Ok (VInt 2).
Proof.
  intros ops. split; [reflexivity|].
  rewrite (binning_value_round_trip (VInt 2) ops
             (example_adapter, scripted_world []) eq_refl).
  reflexivity.
Defined.

(** A region of interest passed on, and its answer dropped. *)
Lemma forwarded_requests_make_one_call_witness :
  let o := SetRegionOfInterest (VInt 0) (VInt 511) (VInt 0) (VInt 255) (VInt 2) in
  let m := set_roi (VInt 0) (VInt 511) (VInt 0) (VInt 255) (VInt 2) in
  let w := scripted_world [Ok (VStr "roi set")] in
  forwarded o = Some (m, false) /\
  cam opened_adapter = Some 0 /\
  fst (run_op o (opened_adapter, w)) = Ok VNone /\
  log (snd (snd (run_op o (opened_adapter, w)))) =
    [EvCall 0 m (Ok (VStr "roi set"))].
Proof.
  intros o m w. split; [reflexivity|]. split; [reflexivity|].
  rewrite (forwarded_requests_make_one_call o m false opened_adapter w 0
             eq_refl eq_refl).
  split; reflexivity.
Defined.


(** A single acquisition in which setting the trigger mode fails. *)
Lemma start_acquisition_stops_at_first_failure_witness :
  let e := SdkError (VStr "not ready") in
  let w := scripted_world [Ok (VStr "ext"); Raise e] in
  let evs := [EvCall 0 cam_get_trigger_mode (Ok (VStr "ext"));
              EvCall 0 (cam_set_trigger_mode (VStr "int")) (Raise e)] in
  cam opened_adapter = Some 0 /\
  log (snd (snd (start_single_acquisition (opened_adapter, w)))) = log w ++ evs /\
  sdk_calls (log (snd (snd (start_single_acquisition (opened_adapter, w)))))
    `prefix_of`
    [Method 0 cam_get_trigger_mode;
     Method 0 (cam_set_trigger_mode (VStr "int"));
     Method 0 (setup_acquisition "snap" 1);
     Method 0 (start_acquisition "snap" 1);
     Method 0 wait_for_frame;
     Method 0 get_status] /\
  fst (start_single_acquisition (opened_adapter, w)) = Raise e.
Proof.
  intros e w evs.
  destruct (start_acquisition_stops_at_first_failure opened_adapter w 0 eq_refl)
    as (Hprefix & _ & Hlast & _).
  split; [reflexivity|]. split; [reflexivity|]. split; [exact Hprefix|].
  apply (Hlast evs (EvCall 0 (cam_set_trigger_mode (VStr "int")) (Raise e)) e).
  - reflexivity.
  - apply elem_of_cons. right. apply elem_of_cons. left. reflexivity.
  - reflexivity.
Defined.
